(** * News-content extraction and impact-prompt assembly

    A shallow embedding of [app/core/langraph/tools/web_scraper.py]:
    [extract_news_content], [analyze_news_impact], [NewsImpactTool._run]
    and [NewsImpactTool._arun], together with the parts of the Python
    runtime, of [requests] and of [bs4] that these functions call; and of
    the endpoint [analyze_news_impact_endpoint] of
    [app/api/v1/chatbot.py], which imports [analyze_news_impact]. *)

From Stdlib Require Import String Ascii ZArith NArith Bool Lia List.
Import ListNotations.

Set Implicit Arguments.

(** ** Python strings

    A Python [str] is a sequence of Unicode code points.  A code point is
    an [N]; literals of the source are written [py "..."] (all literals of
    the module are ASCII, so one byte is one code point). *)

Definition char := N.
Definition str := list char.

Definition py (s : string) : str := map N_of_ascii (list_ascii_of_string s).

Definition str_eqb (a b : str) : bool :=
  if list_eq_dec N.eq_dec a b then true else false.

(** [str.isspace] on one code point: the characters [str.split()] and
    [str.strip()] treat as white space. *)
Definition isspace (c : char) : bool :=
  (((9 <=? c) && (c <=? 13)) || ((28 <=? c) && (c <=? 32))
   || (c =? 133) || (c =? 160) || (c =? 5760)
   || ((8192 <=? c) && (c <=? 8202))
   || (c =? 8232) || (c =? 8233) || (c =? 8239) || (c =? 8287)
   || (c =? 12288))%N.

(** [s.lstrip()], [s.rstrip()], [s.strip()] *)
Fixpoint lstrip (s : str) : str :=
  match s with
  | [] => []
  | c :: r => if isspace c then lstrip r else s
  end.

Definition rstrip (s : str) : str := rev (lstrip (rev s)).

Definition strip (s : str) : str := rstrip (lstrip s).

(** [s.split()]: the scanning loop of [str.split] without a separator.
    [word] is the word being read, most recent character first; a white
    space character closes it, and empty words are never produced. *)
Fixpoint split_from (word : str) (s : str) : list str :=
  match s with
  | [] => match word with [] => [] | _ => [rev word] end
  | c :: r =>
      if isspace c
      then match word with
           | [] => split_from [] r
           | _ => rev word :: split_from [] r
           end
      else split_from (c :: word) r
  end.

Definition split (s : str) : list str := split_from [] s.

(** [sep.join(parts)] *)
Fixpoint join (sep : str) (parts : list str) : str :=
  match parts with
  | [] => []
  | [p] => p
  | p :: rest => p ++ sep ++ join sep rest
  end.

(** [l[:stop]] for a Python [int] [stop]: a negative [stop] counts from
    the end of the list. *)
Definition slice_to (A : Type) (stop : Z) (l : list A) : list A :=
  if (stop <? 0)%Z
  then firstn (Z.to_nat (Z.of_nat (length l) + stop)) l
  else firstn (Z.to_nat stop) l.

(** [sub in s] *)
Definition substring (sub s : str) : Prop :=
  exists pre post, s = pre ++ sub ++ post.

(** ** The [re] module, as far as the module uses it

    [re.compile(r'(article|content|main-content)', re.I)]: an alternation
    of literals, compiled with [IGNORECASE], and used through [search]. *)

Definition ascii_lower (c : char) : char :=
  if ((65 <=? c) && (c <=? 90))%N then (c + 32)%N else c.

Definition is_ascii_letter (c : char) : bool :=
  (((65 <=? c) && (c <=? 90)) || ((97 <=? c) && (c <=? 122)))%N.

(** The lower-case mapping of the matcher.  It agrees with the Unicode
    one wherever the result is compared with an ASCII letter: besides the
    ASCII capitals, U+0130 lowers to [i] and U+212A to [k]. *)
Definition sre_lower (c : char) : char :=
  if (c =? 304)%N then 105%N
  else if (c =? 8490)%N then 107%N
  else ascii_lower c.

(** One literal of the pattern against one character of the subject under
    [re.I].  A cased literal matches every character that lowers to it;
    [i] and [s] also match U+0131 and U+017F. *)
Definition literal_I (p c : char) : bool :=
  if is_ascii_letter p then
    let lo := ascii_lower p in
    ((sre_lower c =? lo)
     || ((lo =? 105) && (c =? 305))
     || ((lo =? 115) && (c =? 383)))%N
  else (p =? c)%N.

Fixpoint match_here_I (p s : str) : bool :=
  match p, s with
  | [], _ => true
  | _ :: _, [] => false
  | a :: p', b :: s' => literal_I a b && match_here_I p' s'
  end.

(** [pattern.search(s)] for an alternation [alts] of literals: is there a
    position of [s] where one of them matches? *)
Fixpoint search_I (alts : list str) (s : str) : bool :=
  existsb (fun p => match_here_I p s) alts ||
  match s with
  | [] => false
  | _ :: r => search_I alts r
  end.

(** ** [bs4]: the parsed document *)

(** The classes of strings in a parse tree. *)
Inductive string_type : Type :=
| TNavigableString | TCData | TComment | TDoctype | TScript | TStylesheet.

(** [Tag.interesting_string_types], the default [types] of [get_text]. *)
Definition interesting_string_type (ty : string_type) : bool :=
  match ty with
  | TNavigableString | TCData => true
  | _ => false
  end.

(** An attribute value: a string, or a list of strings for the
    multi-valued attributes ([class]). *)
Inductive attr_value : Type :=
| AttrStr (v : str)
| AttrList (vs : list str).

#[warning="-register-all"] Inductive PageElement : Type :=
| NavigableString (ty : string_type) (s : str)
| Tag (name : str) (attrs : list (str * attr_value))
      (contents : list PageElement).

(** [tag.attrs.get(key)] *)
Fixpoint attrs_get (key : str) (attrs : list (str * attr_value))
  : option attr_value :=
  match attrs with
  | [] => None
  | (k, v) :: rest => if str_eqb k key then Some v else attrs_get key rest
  end.

(** [element.descendants]: every element below [e], in document order. *)
Fixpoint descendants (e : PageElement) : list PageElement :=
  match e with
  | NavigableString _ _ => []
  | Tag _ _ contents => flat_map (fun c => c :: descendants c) contents
  end.

(** [SoupStrainer._matches(value, regex)] for an attribute value: an
    absent attribute never matches; a list matches when one of its items
    does, or the items joined by a space do. *)
Definition attr_matches (alts : list str) (value : option attr_value) : bool :=
  match value with
  | None => false
  | Some (AttrStr v) => search_I alts v
  | Some (AttrList vs) =>
      existsb (search_I alts) vs || search_I alts (join (py " ") vs)
  end.

(** [SoupStrainer.search_tag]: the tag name, then every attribute filter. *)
Definition search_tag (name : str) (filters : list (str * list str))
           (e : PageElement) : bool :=
  match e with
  | NavigableString _ _ => false
  | Tag n attrs _ =>
      str_eqb n name &&
      forallb (fun f => attr_matches (snd f) (attrs_get (fst f) attrs)) filters
  end.

(** [soup.find(name, **filters)]: the first matching descendant, or [None]. *)
Definition find (name : str) (filters : list (str * list str))
           (soup : PageElement) : option PageElement :=
  List.find (search_tag name filters) (descendants soup).

(** [tag._all_strings(strip=True)] and [tag.get_text(strip=True)]: the
    strings of interesting type below the tag, each one stripped, the
    empty ones dropped, joined with the default separator, the empty
    string. *)
Definition all_strings_strip (e : PageElement) : list str :=
  flat_map (fun d =>
              match d with
              | NavigableString ty s =>
                  if interesting_string_type ty
                  then match strip s with [] => [] | s' => [s'] end
                  else []
              | Tag _ _ _ => []
              end)
           (descendants e).

Definition get_text_strip (e : PageElement) : str :=
  join [] (all_strings_strip e).

(** [tag.get_text()] with the defaults, for comparison: the strings as
    they stand in the document. *)
Definition get_text (e : PageElement) : str :=
  concat (flat_map (fun d =>
                      match d with
                      | NavigableString ty s =>
                          if interesting_string_type ty then [s] else []
                      | Tag _ _ _ => []
                      end)
                   (descendants e)).

(** ** Exceptions and results *)

(** The subclasses of [requests.RequestException] a fetch can raise. *)
Inductive request_error : Type :=
| Timeout
| ConnectionError
| HTTPError (status : Z)
| TooManyRedirects
| InvalidURL
| ChunkedEncodingError.

Inductive exception : Type :=
| RequestException (e : request_error)
| ValueError
| OtherException (class_name : string).

(** A call returns a value or raises. *)
Inductive result (A : Type) : Type :=
| Ok (a : A)
| Raise (e : exception).

Arguments Ok {A} a.
Arguments Raise {A} e.

Definition bind (A B : Type) (m : result A) (k : A -> result B) : result B :=
  match m with
  | Ok a => k a
  | Raise e => Raise e
  end.

(** [try: body  except classes: handler] *)
Definition try_except (A : Type) (body : result A)
           (catches : exception -> bool) (handler : exception -> result A)
  : result A :=
  match body with
  | Ok a => Ok a
  | Raise e => if catches e then handler e else Raise e
  end.

Declare Scope py_scope.
Delimit Scope py_scope with py.
Notation "x <- m ;; k" := (bind m (fun x => k))
  (at level 61, m at next level, right associativity) : py_scope.
Notation "m ;;; k" := (bind m (fun _ => k))
  (at level 61, right associativity) : py_scope.
Local Open Scope py_scope.

(** ** [requests] *)

Record Response : Type := mkResponse {
  status_code : Z;
  text : str
}.

(** [response.raise_for_status()]: client and server error statuses. *)
Definition raise_for_status (r : Response) : result unit :=
  if ((400 <=? status_code r) && (status_code r <? 600))%Z
  then Raise (RequestException (HTTPError (status_code r)))
  else Ok tt.

(** What lies outside the program: the network behind [requests.get] and
    the HTML parser behind [BeautifulSoup(markup, 'html.parser')].  The
    parser returns the document object, a tag whose contents are the
    top-level elements. *)
Record World : Type := mkWorld {
  requests_get : str -> list (str * str) -> Z -> result Response;
  BeautifulSoup : str -> str -> result PageElement
}.

(** ** [web_scraper.py] *)

Definition headers : list (str * str) :=
  [(py "User-Agent",
    py "Mozilla/5.0 (Windows NT 10.0; Win64; x64) AppleWebKit/537.36 (KHTML, like Gecko) Chrome/91.0.4472.124 Safari/537.36")].

Definition content_re : list str :=
  [py "article"; py "content"; py "main-content"].

(** The list [content_candidates] of [extract_news_content]. *)
Definition content_candidates (soup : PageElement)
  : list (option PageElement) :=
  [ find (py "article") [] soup;
    find (py "div") [(py "class", content_re)] soup;
    find (py "div") [(py "id", content_re)] soup;
    find (py "body") [] soup ].

(** The body of the loop for one candidate: the text, white space
    normalised, cut to [max_words] words. *)
Definition candidate_text (max_words : Z) (candidate : PageElement) : str :=
  let text := join (py " ") (split (get_text_strip candidate)) in
  let words := slice_to max_words (split text) in
  join (py " ") words.

(** [for candidate in content_candidates: if candidate: ... return ...].
    A [Tag] is always true ([Tag.__bool__]), also when it has no
    contents, so the test separates a tag from [None]. *)
Fixpoint first_candidate (max_words : Z) (cs : list (option PageElement))
  : option str :=
  match cs with
  | [] => None
  | Some candidate :: _ => Some (candidate_text max_words candidate)
  | None :: rest => first_candidate max_words rest
  end.

Definition extract_catches (e : exception) : bool :=
  match e with
  | RequestException _ | ValueError => true
  | OtherException _ => false
  end.

(** [extract_news_content(url, max_words)].  The handler also prints a
    line, which no caller reads. *)
Definition extract_news_content (w : World) (url : str) (max_words : Z)
  : result (option str) :=
  try_except
    (response <- requests_get w url headers 10 ;;
     raise_for_status response ;;;
     soup <- BeautifulSoup w (text response) (py "html.parser") ;;
     Ok (first_candidate max_words (content_candidates soup)))
    extract_catches
    (fun _ => Ok None).

Definition nl : str := [10%N].

(** The f-string of [analyze_news_impact]. *)
Definition impact_prompt (content field : str) : str :=
  nl ++
  py "    News Content: " ++ content ++ nl ++
  py "    " ++ nl ++
  py "    Analyze the potential impact of this news on the " ++ field
     ++ py " sector:" ++ nl ++
  py "    - Identify key events or developments" ++ nl ++
  py "    - Explain potential short-term and long-term consequences" ++ nl ++
  py "    - Provide specific insights related to " ++ field ++ nl ++
  py "    ".

(** [analyze_news_impact], with the formatting step as a parameter
    [format] that may itself raise; [not content] holds for [None] and for
    the empty string. *)
Definition analyze_news_impact_with
           (format : str -> str -> result str)
           (w : World) (url field : str) (max_words : Z)
  : result (option str) :=
  content <- extract_news_content w url max_words ;;
  match content with
  | None => Ok None
  | Some [] => Ok None
  | Some c =>
      prompt <- format c field ;;
      Ok (Some prompt)
  end.

Definition analyze_news_impact (w : World) (url field : str) (max_words : Z)
  : result (option str) :=
  analyze_news_impact_with (fun c f => Ok (impact_prompt c f))
                           w url field max_words.

(** [NewsImpactTool] *)
Module NewsImpactTool.

Definition name : str := py "news_impact_analysis".

Definition description : str :=
  py "Analyze the potential impact of a news article on a specific field".

Section Methods.
(** The type of the values of the extra keyword arguments. *)
Variable Any : Type.

Definition _run (w : World) (url field : str)
           (kwargs : list (str * Any)) : result str :=
  r <- analyze_news_impact w url field 500 ;;
  match r with
  | None => Ok (py "Unable to extract or analyze the news article content.")
  | Some prompt => Ok prompt
  end.

(** A coroutine is a suspended computation; [await] runs it. *)
Definition coroutine (A : Type) : Type := unit -> result A.

Definition await (A : Type) (c : coroutine A) : result A := c tt.

Definition _arun (w : World) (url field : str)
           (kwargs : list (str * Any)) : coroutine str :=
  fun _ => _run w url field kwargs.
End Methods.

End NewsImpactTool.

(** ** [app/api/v1/chatbot.py]: the news-impact endpoint *)

(** *** JSON values, as [response.json()] returns them *)

#[warning="-register-all"] Inductive json : Type :=
| JNull
| JBool (b : bool)
| JNumber (literal : str)
| JString (s : str)
| JArray (items : list json)
| JObject (members : list (str * json)).

(** [d.get(key)] on the members of an object. *)
Fixpoint json_member (key : str) (members : list (str * json))
  : option json :=
  match members with
  | [] => None
  | (k, v) :: rest => if str_eqb k key then Some v else json_member key rest
  end.

(** A subscript: a string key or an integer index. *)
Inductive subscript : Type :=
| Key (k : str)
| Index (i : Z).

(** [seq[i]] for a Python [int] on a sequence: a negative index counts
    from the end; out of range is an [IndexError]. *)
Definition sequence_item (A : Type) (l : list A) (i : Z) : result A :=
  let n := Z.of_nat (length l) in
  let j := if (i <? 0)%Z then (n + i)%Z else i in
  if ((0 <=? j) && (j <? n))%Z
  then match nth_error l (Z.to_nat j) with
       | Some x => Ok x
       | None => Raise (OtherException "IndexError")
       end
  else Raise (OtherException "IndexError").

(** [value[k]] on a decoded JSON value: a [dict] takes any key and has
    only string keys, a [list] and a [str] take an integer, nothing else
    can be subscripted. *)
Definition getitem (value : json) (k : subscript) : result json :=
  match value, k with
  | JObject members, Key key =>
      match json_member key members with
      | Some v => Ok v
      | None => Raise (OtherException "KeyError")
      end
  | JObject _, Index _ => Raise (OtherException "KeyError")
  | JArray items, Index i => sequence_item items i
  | JArray _, Key _ => Raise (OtherException "TypeError")
  | JString s, Index i =>
      c <- sequence_item s i ;; Ok (JString [c])
  | JString _, Key _ => Raise (OtherException "TypeError")
  | _, _ => Raise (OtherException "TypeError")
  end.

(** The classes that [except Exception] does not catch: they derive
    from [BaseException] only. *)
Definition base_exception_only : list string :=
  ["BaseException"; "KeyboardInterrupt"; "SystemExit"; "GeneratorExit";
   "CancelledError"; "BaseExceptionGroup"]%string.

(** [isinstance(e, Exception)] *)
Definition is_Exception (e : exception) : bool :=
  match e with
  | RequestException _ | ValueError => true
  | OtherException class_name =>
      negb (existsb (String.eqb class_name) base_exception_only)
  end.

Module Chatbot.

(** The request and response schemas are declared outside the module;
    the endpoint reads [url] and [field] of the one and builds the other
    from [content].  [url] stands for the text the f-string makes of it. *)
Record NewsImpactRequest : Type := mkNewsImpactRequest {
  url : str;
  field : str
}.

Record NewsImpactResponse : Type := mkNewsImpactResponse {
  content : str
}.

(** What lies outside the endpoint: the model service behind
    [requests.post], the JSON decoder behind [response.json()], the
    validation of the [content] field of the response schema, and the
    text [str(e)] of an exception. *)
Record Service : Type := mkService {
  requests_post : str -> json -> Z -> result Response;
  response_json : Response -> result json;
  validate_content : json -> result str;
  exception_str : exception -> str;
  http_exception_str : Z -> str -> str
}.

(** What a handler of the endpoint can see raised: a Python exception of
    the calls made, or an [HTTPException]. *)
Inductive raised : Type :=
| PythonException (e : exception)
| HTTPException (status_code : Z) (detail : str).

(** How a block of statements ends: it falls through to the next
    statement, returns, or raises. *)
Inductive completion (A : Type) : Type :=
| Falls
| Returns (a : A)
| Throws (e : raised).

Arguments Falls {A}.
Arguments Returns {A} a.
Arguments Throws {A} e.

(** [block1; block2] *)
Definition seq (A : Type) (first second : completion A) : completion A :=
  match first with
  | Falls => second
  | Returns a => Returns a
  | Throws e => Throws e
  end.

(** [NewsImpactResponse(content=value)] *)
Definition new_NewsImpactResponse (s : Service) (value : json)
  : result NewsImpactResponse :=
  c <- validate_content s value ;; Ok (mkNewsImpactResponse c).

(** The prompt of the first [try]. *)
Definition endpoint_prompt (news_request : NewsImpactRequest) : str :=
  py "Analyze the potential impact of this news article on the "
     ++ field news_request ++ py " sector. "
  ++ py "URL: " ++ url news_request ++ nl
  ++ py "Please extract the main content and provide:" ++ nl
  ++ py "- Key events or developments" ++ nl
  ++ py "- Potential short-term and long-term consequences" ++ nl
  ++ py "- Specific insights related to " ++ field news_request.

Definition ollama_url : str :=
  py "http://localhost:11434/v1/chat/completions".

Definition payload (prompt : str) : json :=
  JObject
    [(py "model", JString (py "deepseek-r1:1.5b"));
     (py "messages",
      JArray [JObject [(py "role", JString (py "user"));
                       (py "content", JString prompt)]]);
     (py "stream", JBool false)].

(** [data["choices"][0]["message"]["content"]] *)
Definition llm_content (data : json) : result json :=
  choices <- getitem data (Key (py "choices")) ;;
  first <- getitem choices (Index 0) ;;
  message <- getitem first (Key (py "message")) ;;
  getitem message (Key (py "content")).

(** The statements of the first [try], up to its [return]. *)
Definition first_try_body (s : Service) (news_request : NewsImpactRequest)
  : result NewsImpactResponse :=
  response <- requests_post s ollama_url
                            (payload (endpoint_prompt news_request)) 60 ;;
  raise_for_status response ;;;
  data <- response_json s response ;;
  value <- llm_content data ;;
  new_NewsImpactResponse s value.

(** The first [try ... except Exception]: the body ends in [return], the
    handler in [raise HTTPException(500, ...)]; what is not an
    [Exception] passes the handler by.  The handler also logs. *)
Definition first_try (s : Service) (news_request : NewsImpactRequest)
  : completion NewsImpactResponse :=
  match first_try_body s news_request with
  | Ok r => Returns r
  | Raise e =>
      if is_Exception e
      then Throws (HTTPException
                     500 (py "Failed to analyze news impact: "
                          ++ exception_str s e))
      else Throws (PythonException e)
  end.

(** The statements of the second [try]. *)
Definition second_try_body (w : World) (s : Service)
           (news_request : NewsImpactRequest)
  : completion NewsImpactResponse :=
  match analyze_news_impact w (url news_request) (field news_request) 500 with
  | Raise e => Throws (PythonException e)
  | Ok None =>
      Throws (HTTPException
                400
                (py "Unable to extract or analyze the news article content."))
  | Ok (Some question) =>
      match new_NewsImpactResponse s (JString question) with
      | Ok r => Returns r
      | Raise e => Throws (PythonException e)
      end
  end.

(** The second [try ... except Exception]: an [HTTPException] is an
    [Exception] too, so the handler turns whatever the body raises into
    [HTTPException(500, str(e))]. *)
Definition second_try (w : World) (s : Service)
           (news_request : NewsImpactRequest)
  : completion NewsImpactResponse :=
  match second_try_body w s news_request with
  | Throws (PythonException e) =>
      if is_Exception e
      then Throws (HTTPException 500 (exception_str s e))
      else Throws (PythonException e)
  | Throws (HTTPException status detail) =>
      Throws (HTTPException 500 (http_exception_str s status detail))
  | other => other
  end.

(** [analyze_news_impact_endpoint]: the two [try] statements in a row. *)
Definition analyze_news_impact_endpoint
           (w : World) (s : Service) (news_request : NewsImpactRequest)
  : completion NewsImpactResponse :=
  seq (first_try s news_request) (second_try w s news_request).

End Chatbot.

(** ** Vocabulary of the statements *)

(** The fetch of [url] went through and the page parsed to [soup]. *)
Definition fetched (w : World) (url : str) (soup : PageElement) : Prop :=
  exists response,
    requests_get w url headers 10 = Ok response
    /\ raise_for_status response = Ok tt
    /\ BeautifulSoup w (text response) (py "html.parser") = Ok soup.

(** [e] is the first element of [soup], in document order, that
    satisfies [p]; no element of [soup] satisfies [p]. *)
Definition first_element (p : PageElement -> bool)
           (soup e : PageElement) : Prop :=
  exists before after,
    descendants soup = before ++ e :: after
    /\ p e = true
    /\ forallb (fun x => negb (p x)) before = true.





(** A word: not empty, no white space in it. *)
Definition is_word (s : str) : bool :=
  negb (str_eqb s []) && forallb (fun c => negb (isspace c)) s.


(** *** The specification's wording, where it differs from the code *)

(** The words of the element's text: the text as it stands in the
    document, split at white space, cut to [max_words] words, joined by
    single spaces. *)
Definition spec_candidate_text (max_words : Z) (e : PageElement) : str :=
  join (py " ") (firstn (Z.to_nat max_words) (split (get_text e))).






(** *** Sample pages *)

Definition Text : str -> PageElement := NavigableString TNavigableString.

Definition document (contents : list PageElement) : PageElement :=
  Tag (py "[document]") [] contents.

(** A world in which every fetch answers with [status] and a page that
    parses to [soup]. *)
Definition page (status : Z) (markup : str) (soup : PageElement) : World :=
  mkWorld (fun _ _ _ => Ok (mkResponse status markup)) (fun _ _ => Ok soup).

(** A world in which every fetch raises [e]. *)
Definition unreachable (e : exception) : World :=
  mkWorld (fun _ _ _ => Raise e)
          (fun _ _ => Raise (OtherException "unreachable")).

Definition example_url : str := py "https://news.example/story".

(** [<article>Hello <b>big</b> world</article>] *)
Definition inline_markup_page : PageElement :=
  document
    [Tag (py "article") []
         [Text (py "Hello "); Tag (py "b") [] [Text (py "big")];
          Text (py " world")]].

(** [<body><article></article><p>Body text</p></body>] *)
Definition empty_article_page : PageElement :=
  document
    [Tag (py "body") []
         [Tag (py "article") [] [];
          Tag (py "p") [] [Text (py "Body text")]]].


(** [<body><p>Plain page</p></body>] *)
Definition plain_page : PageElement :=
  document [Tag (py "body") [] [Tag (py "p") [] [Text (py "Plain page")]]].

(** [<body><p>Plain   page  again</p></body>] *)
Definition spaced_page : PageElement :=
  document
    [Tag (py "body") [] [Tag (py "p") [] [Text (py "Plain   page  again")]]].


(** *** Vocabulary of the further properties *)

(** [m] is the literal [p] up to the case rules of [re.I]. *)
Definition ci_equal (p m : str) : Prop :=
  Forall2 (fun a b => literal_I a b = true) p m.

(** The candidate the loop of [extract_news_content] stops at. *)
Fixpoint first_existing (cs : list (option PageElement))
  : option PageElement :=
  match cs with
  | [] => None
  | Some candidate :: _ => Some candidate
  | None :: rest => first_existing rest
  end.

(** The words of the page behind [url], before the cut at [max_words]:
    the words of the text of the candidate the loop stops at. *)
Definition page_words (w : World) (url : str) : result (option (list str)) :=
  try_except
    (response <- requests_get w url headers 10 ;;
     raise_for_status response ;;;
     soup <- BeautifulSoup w (text response) (py "html.parser") ;;
     Ok (option_map (fun c => split (get_text_strip c))
                    (first_existing (content_candidates soup))))
    extract_catches
    (fun _ => Ok None).


(** [<body><p>one two</p> <p>three four five</p></body>] *)
Definition two_paragraph_page : PageElement :=
  document
    [Tag (py "body") []
         [Tag (py "p") [] [Text (py "one two")];
          Text (py " ");
          Tag (py "p") [] [Text (py " three four five")]]].

(** *** Sample model services *)

(** A service that answers every post with [status] and a body that
    decodes to [data]; the response schema accepts a string as content;
    [message] is the text [str(e)] of the exception that reading [data]
    leads to, if it leads to one. *)
Definition sample_service (status : Z) (data : json) (message : str)
  : Chatbot.Service :=
  Chatbot.mkService
    (fun _ _ _ => Ok (mkResponse status (py "{}")))
    (fun _ => Ok data)
    (fun value =>
       match value with
       | JString s => Ok s
       | _ => Raise (OtherException "ValidationError")
       end)
    (fun _ => message)
    (fun status detail => detail).

(** [{"choices": [{"message": {"role": "assistant", "content": "Rates may rise."}}]}] *)
Definition completion_json : json :=
  JObject
    [(py "choices",
      JArray
        [JObject
           [(py "message",
             JObject [(py "role", JString (py "assistant"));
                      (py "content", JString (py "Rates may rise."))])]])].

(** [{"choices": []}] *)
Definition no_choices_json : json :=
  JObject [(py "choices", JArray [])].

Definition sample_request : Chatbot.NewsImpactRequest :=
  Chatbot.mkNewsImpactRequest example_url (py "finance").

(** * Properties *)

(** ** Strings *)

Section Strings.

Lemma forallb_rev (A : Type) (f : A -> bool) (l : list A) :
  forallb f (rev l) = forallb f l.
Proof.
  induction l as [|a l IH]; simpl; [reflexivity|].
  rewrite forallb_app, IH. simpl. rewrite andb_true_r. apply andb_comm.
Qed.

Lemma rev_nil_inv (A : Type) (l : list A) : rev l = [] -> l = [].
Proof.
  intros E. rewrite <- (rev_involutive l), E. reflexivity.
Qed.

Lemma str_eqb_eq (a b : str) : str_eqb a b = true <-> a = b.
Proof.
  unfold str_eqb. destruct (list_eq_dec N.eq_dec a b); split; intros H;
    solve [assumption | reflexivity | discriminate H | contradiction].
Qed.

Lemma str_eqb_refl (a : str) : str_eqb a a = true.
Proof. apply str_eqb_eq. reflexivity. Qed.

Lemma is_word_inv (s : str) :
  is_word s = true ->
  s <> [] /\ forallb (fun c => negb (isspace c)) s = true.
Proof.
  unfold is_word. intros H.
  apply andb_true_iff in H. destruct H as [Hne Hall].
  split; [|exact Hall].
  intros E. apply (str_eqb_eq s []) in E. rewrite E in Hne. discriminate Hne.
Qed.

Lemma is_word_intro (s : str) :
  s <> [] -> forallb (fun c => negb (isspace c)) s = true ->
  is_word s = true.
Proof.
  unfold is_word. intros Hne Hall. rewrite Hall, andb_true_r.
  destruct (str_eqb s []) eqn:E; [|reflexivity].
  apply str_eqb_eq in E. contradiction.
Qed.

(** Reading the characters of a word moves them into the accumulator. *)
Lemma split_from_word (w acc rest : str) :
  forallb (fun c => negb (isspace c)) w = true ->
  split_from acc (w ++ rest) = split_from (rev w ++ acc) rest.
Proof.
  revert acc. induction w as [|c w IH]; intros acc Hw; simpl in *.
  - reflexivity.
  - apply andb_true_iff in Hw. destruct Hw as [Hc Hw].
    apply negb_true_iff in Hc. rewrite Hc.
    rewrite IH by assumption. rewrite <- app_assoc. reflexivity.
Qed.

(** [' '.join(words).split()] gives the words back. *)
Lemma split_join (ws : list str) :
  forallb is_word ws = true -> split (join (py " ") ws) = ws.
Proof.
  unfold split. induction ws as [|p ws IH]; intros Hws.
  - reflexivity.
  - simpl in Hws. apply andb_true_iff in Hws. destruct Hws as [Hp Hws].
    apply is_word_inv in Hp. destruct Hp as [Hne Hp].
    assert (Hrev : rev p <> []).
    { intros E. apply Hne, rev_nil_inv, E. }
    destruct ws as [|q ws].
    + simpl. rewrite <- (app_nil_r p) at 1.
      rewrite split_from_word by assumption. rewrite app_nil_r. simpl.
      destruct (rev p) eqn:E; [contradiction|].
      rewrite <- E, rev_involutive. reflexivity.
    + change (join (py " ") (p :: q :: ws))
        with (p ++ py " " ++ join (py " ") (q :: ws)).
      rewrite split_from_word by assumption. rewrite app_nil_r.
      change (py " " ++ join (py " ") (q :: ws))
        with (32%N :: join (py " ") (q :: ws)).
      simpl split_from at 1.
      destruct (rev p) eqn:E; [contradiction|].
      rewrite <- E, rev_involutive. f_equal. apply IH. assumption.
Qed.

Lemma split_from_words (s acc : str) :
  forallb (fun c => negb (isspace c)) acc = true ->
  forallb is_word (split_from acc s) = true.
Proof.
  revert acc. induction s as [|c s IH]; intros acc Hacc; simpl.
  - destruct acc as [|a acc]; [reflexivity|]. simpl.
    rewrite andb_true_r. apply is_word_intro.
    + intros E. apply (rev_nil_inv (a :: acc)) in E. discriminate E.
    + rewrite forallb_app. simpl in Hacc |- *.
      apply andb_true_iff in Hacc. destruct Hacc as [Ha Hacc].
      rewrite forallb_rev, Hacc, Ha. reflexivity.
  - destruct (isspace c) eqn:Hc.
    + destruct acc as [|a acc]; [apply IH; reflexivity|].
      change (forallb is_word (rev (a :: acc) :: split_from [] s) = true).
      simpl forallb. rewrite (IH [] eq_refl), andb_true_r.
      apply is_word_intro.
      * intros E. apply (rev_nil_inv (a :: acc)) in E. discriminate E.
      * change (rev acc ++ [a]) with (rev (a :: acc)).
        rewrite forallb_rev. exact Hacc.
    + apply IH. simpl. rewrite Hc. exact Hacc.
Qed.

(** [s.split()] is a list of words. *)
Lemma split_words (s : str) : forallb is_word (split s) = true.
Proof. apply split_from_words. reflexivity. Qed.







Lemma substring_intro (pre sub post : str) :
  substring sub (pre ++ sub ++ post).
Proof. exists pre, post. reflexivity. Qed.

End Strings.

(** ** Searching the document *)

Section Find.

Variables (A : Type) (p : A -> bool).

Lemma list_find_first (l before after : list A) (e : A) :
  l = before ++ e :: after ->
  p e = true ->
  forallb (fun x => negb (p x)) before = true ->
  List.find p l = Some e.
Proof.
  intros -> He. induction before as [|b before IH]; simpl; intros Hb.
  - rewrite He. reflexivity.
  - apply andb_true_iff in Hb. destruct Hb as [Hb Hrest].
    apply negb_true_iff in Hb. rewrite Hb. apply IH. exact Hrest.
Qed.


Lemma list_find_split (l : list A) (e : A) :
  List.find p l = Some e ->
  exists before after,
    l = before ++ e :: after
    /\ p e = true
    /\ forallb (fun x => negb (p x)) before = true.
Proof.
  induction l as [|a l IH]; simpl; intros H; [discriminate H|].
  destruct (p a) eqn:Ha.
  - injection H as ->. exists [], l. repeat split. exact Ha.
  - destruct (IH H) as (before & after & -> & He & Hb).
    exists (a :: before), after. repeat split; [exact He|].
    simpl. rewrite Ha, Hb. reflexivity.
Qed.

End Find.

Lemma find_first_element (name : str) (filters : list (str * list str))
      (soup e : PageElement) :
  first_element (search_tag name filters) soup e ->
  find name filters soup = Some e.
Proof.
  intros (before & after & Hd & He & Hb).
  unfold find. eapply list_find_first; eassumption.
Qed.


(** [find] returns the first match in document order, and nothing else. *)
Lemma find_is_first_element (name : str) (filters : list (str * list str))
      (soup e : PageElement) :
  find name filters soup = Some e <->
  first_element (search_tag name filters) soup e.
Proof.
  split; [|apply find_first_element].
  unfold find, first_element. apply list_find_split.
Qed.

(** ** [extract_news_content] *)

Section Extraction.

Variable w : World.
Variable url : str.
Variable max_words : Z.

(** After a successful fetch the result is decided by the candidates. *)
Lemma extract_fetched (soup : PageElement) :
  fetched w url soup ->
  extract_news_content w url max_words
  = Ok (first_candidate max_words (content_candidates soup)).
Proof.
  intros (response & Hget & Hstatus & Hparse).
  unfold extract_news_content. rewrite Hget. simpl.
  rewrite Hstatus. simpl. rewrite Hparse. reflexivity.
Qed.

Lemma first_candidate_skip (nones rest : list (option PageElement)) :
  Forall (fun c => c = None) nones ->
  first_candidate max_words (nones ++ rest)
  = first_candidate max_words rest.
Proof.
  induction 1 as [|c nones Hc _ IH]; simpl; [reflexivity|].
  rewrite Hc. exact IH.
Qed.


(** The text of a candidate is the list of the words of
    [get_text(strip=True)], cut at [max_words], joined by single
    spaces: normalising twice changes nothing. *)
Lemma candidate_text_words (candidate : PageElement) :
  candidate_text max_words candidate
  = join (py " ") (slice_to max_words (split (get_text_strip candidate))).
Proof.
  unfold candidate_text. cbv zeta.
  rewrite split_join by apply split_words. reflexivity.
Qed.


End Extraction.

(** ** Article text *)

(** C1 (the code departs from the claim).  The claim: for a page with an
    [<article>], the result is the words of the element's text, at most
    [max_words] of them, joined by single spaces.  The code reads the text
    with [get_text(strip=True)], which strips every string of the element
    and joins them with no separator, so the white space between a string
    and its neighbour is removed rather than collapsed: for
    [<article>Hello <b>big</b> world</article>] the element's text has the
    three words Hello, big, world, and the code returns the single word
    Hellobigworld. *)
Theorem extract_article_merges_words :
  let article_page := page 200 (py "<article>Hello <b>big</b> world</article>")
                           inline_markup_page in
  find (py "article") [] inline_markup_page
  = Some (Tag (py "article") []
              [Text (py "Hello "); Tag (py "b") [] [Text (py "big")];
               Text (py " world")])
  /\ extract_news_content article_page example_url 500
     = Ok (Some (py "Hellobigworld"))
  /\ option_map (spec_candidate_text 500)
                (find (py "article") [] inline_markup_page)
     = Some (py "Hello big world").
Proof. vm_compute. repeat split. Qed.

(** ** Candidate selection *)

(** C2.  The first candidate that exists is taken even when its text is
    empty: if the candidates before [candidate] are all [None] and the
    text of [candidate] is empty, the result is the empty string, whatever
    the later candidates ([rest]) hold. *)
Theorem empty_first_candidate_short_circuits
        (w : World) (url : str) (max_words : Z) (soup : PageElement)
        (nones rest : list (option PageElement)) (candidate : PageElement) :
  fetched w url soup ->
  content_candidates soup = nones ++ Some candidate :: rest ->
  Forall (fun c => c = None) nones ->
  get_text_strip candidate = [] ->
  extract_news_content w url max_words = Ok (Some []).
Proof.
  intros Hfetch Hcs Hnones Hempty.
  rewrite (extract_fetched max_words Hfetch), Hcs.
  rewrite first_candidate_skip by exact Hnones. simpl.
  rewrite candidate_text_words, Hempty.
  unfold slice_to. simpl split.
  destruct (max_words <? 0)%Z; rewrite firstn_nil; reflexivity.
Qed.

Lemma empty_first_candidate_short_circuits_witness :
  find (py "body") [] empty_article_page <> None
  /\ extract_news_content
       (page 200 (py "<body><article></article><p>Body text</p></body>")
             empty_article_page)
       example_url 500
     = Ok (Some []).
Proof.
  split; [vm_compute; discriminate|].
  apply (@empty_first_candidate_short_circuits
           _ _ 500 empty_article_page []
           (tl (content_candidates empty_article_page))
           (Tag (py "article") [] [])).
  - eexists. repeat split.
  - vm_compute. reflexivity.
  - constructor.
  - reflexivity.
Defined.







(** ** [analyze_news_impact] *)

Lemma substring_cons (sub s : str) (c : char) :
  substring sub s -> substring sub (c :: s).
Proof.
  intros (pre & post & ->). exists (c :: pre), post. reflexivity.
Qed.

Lemma substring_app_r (sub pre s : str) :
  substring sub s -> substring sub (pre ++ s).
Proof.
  intros (pre' & post & ->). exists (pre ++ pre'), post.
  rewrite app_assoc. reflexivity.
Qed.

(** Walks along the string until [sub] starts. *)
Ltac find_substring :=
  first [ solve [ exists []; eexists; reflexivity ]
        | apply substring_cons; find_substring
        | apply substring_app_r; find_substring ].

(** The prompt for a non-empty content. *)
Lemma analyze_news_impact_present
      (w : World) (url field : str) (max_words : Z) (content : str) :
  extract_news_content w url max_words = Ok (Some content) ->
  content <> [] ->
  analyze_news_impact w url field max_words
  = Ok (Some (impact_prompt content field)).
Proof.
  intros Hextract Hne. unfold analyze_news_impact, analyze_news_impact_with.
  rewrite Hextract. simpl. destruct content; [contradiction | reflexivity].
Qed.

Lemma analyze_news_impact_inv
      (w : World) (url field : str) (max_words : Z) (prompt : str) :
  analyze_news_impact w url field max_words = Ok (Some prompt) ->
  exists content,
    extract_news_content w url max_words = Ok (Some content)
    /\ content <> []
    /\ prompt = impact_prompt content field.
Proof.
  unfold analyze_news_impact, analyze_news_impact_with.
  destruct (extract_news_content w url max_words) as [[[|c content]|]|e];
    simpl; intros H; try discriminate H.
  injection H as <-. exists (c :: content). repeat split. discriminate.
Qed.


(** C5.  For a present, non-empty content and any field, the prompt
    contains the content, the field, and the three requests: key events
    or developments, short-term and long-term consequences, insights
    related to the field. *)
Theorem prompt_contains_content_and_field
        (w : World) (url field : str) (max_words : Z) (content : str) :
  extract_news_content w url max_words = Ok (Some content) ->
  content <> [] ->
  exists prompt,
    analyze_news_impact w url field max_words = Ok (Some prompt)
    /\ substring content prompt
    /\ substring field prompt
    /\ substring (py "Identify key events or developments") prompt
    /\ substring
         (py "Explain potential short-term and long-term consequences")
         prompt
    /\ substring (py "Provide specific insights related to " ++ field) prompt.
Proof.
  intros Hextract Hne. exists (impact_prompt content field).
  split; [apply analyze_news_impact_present; assumption|].
  unfold impact_prompt. cbn [py nl app map list_ascii_of_string N_of_ascii].
  repeat split; find_substring.
Qed.

Lemma prompt_contains_content_and_field_witness :
  exists prompt,
    analyze_news_impact (page 200 (py "<body><p>Plain page</p></body>")
                              plain_page)
                        example_url (py "technology") 500
    = Ok (Some prompt)
    /\ substring (py "Plain page") prompt
    /\ substring (py "technology") prompt
    /\ substring (py "Identify key events or developments") prompt
    /\ substring
         (py "Explain potential short-term and long-term consequences")
         prompt
    /\ substring (py "Provide specific insights related to "
                  ++ py "technology") prompt.
Proof.
  apply (@prompt_contains_content_and_field
           (page 200 (py "<body><p>Plain page</p></body>") plain_page)
           example_url (py "technology") 500 (py "Plain page")).
  - reflexivity.
  - discriminate.
Defined.

(** C6.  When the extraction is absent, [analyze_news_impact] returns
    [None], and so it does with any formatting step in place of the
    f-string, even one that would raise: the formatting is not run. *)
Theorem absent_content_skips_formatting
        (w : World) (url field : str) (max_words : Z) :
  extract_news_content w url max_words = Ok None ->
  analyze_news_impact w url field max_words = Ok None
  /\ forall format,
      analyze_news_impact_with format w url field max_words = Ok None.
Proof.
  intros Hextract. unfold analyze_news_impact, analyze_news_impact_with.
  rewrite Hextract. split; reflexivity.
Qed.

Lemma absent_content_skips_formatting_witness :
  analyze_news_impact (unreachable (RequestException ConnectionError))
                      example_url (py "finance") 500
  = Ok None
  /\ forall format,
      analyze_news_impact_with
        format (unreachable (RequestException ConnectionError))
        example_url (py "finance") 500
      = Ok None.
Proof.
  apply (@absent_content_skips_formatting
           (unreachable (RequestException ConnectionError))
           example_url (py "finance") 500).
  reflexivity.
Defined.

(** C8.  The prompt depends on the content and the field only: two runs,
    in any two worlds, on any two URLs and word limits, that extract the
    same content and are given the same field build the same prompt. *)
Theorem prompt_depends_on_content_and_field_only
        (w1 w2 : World) (url1 url2 field : str) (max_words1 max_words2 : Z)
        (content prompt1 prompt2 : str) :
  extract_news_content w1 url1 max_words1 = Ok (Some content) ->
  extract_news_content w2 url2 max_words2 = Ok (Some content) ->
  analyze_news_impact w1 url1 field max_words1 = Ok (Some prompt1) ->
  analyze_news_impact w2 url2 field max_words2 = Ok (Some prompt2) ->
  prompt1 = prompt2.
Proof.
  intros He1 He2 Ha1 Ha2.
  apply analyze_news_impact_inv in Ha1. destruct Ha1 as (c1 & Hc1 & _ & ->).
  apply analyze_news_impact_inv in Ha2. destruct Ha2 as (c2 & Hc2 & _ & ->).
  rewrite He1 in Hc1. rewrite He2 in Hc2.
  injection Hc1 as <-. injection Hc2 as <-. reflexivity.
Qed.

Lemma prompt_depends_on_content_and_field_only_witness :
  exists prompt1 prompt2,
    analyze_news_impact
      (page 200 (py "<body><p>Plain page</p></body>") plain_page)
      example_url (py "finance") 500
    = Ok (Some prompt1)
    /\ analyze_news_impact
         (page 203 (py "<body><p>Plain   page  again</p></body>") spaced_page)
         (py "http://mirror.example/") (py "finance") 2
       = Ok (Some prompt2)
    /\ prompt1 = prompt2.
Proof.
  eexists. eexists. split; [reflexivity|]. split; [reflexivity|].
  apply (@prompt_depends_on_content_and_field_only
           (page 200 (py "<body><p>Plain page</p></body>") plain_page)
           (page 203 (py "<body><p>Plain   page  again</p></body>") spaced_page)
           example_url (py "http://mirror.example/") (py "finance") 500 2
           (py "Plain page")); reflexivity.
Defined.

(** C9.  An empty extraction is treated like an absent one: the result
    is [None], with any formatting step in place of the f-string, so the
    template is never reached. *)
Theorem empty_content_is_absent
        (w : World) (url field : str) (max_words : Z) :
  extract_news_content w url max_words = Ok (Some []) ->
  analyze_news_impact w url field max_words = Ok None
  /\ forall format,
      analyze_news_impact_with format w url field max_words = Ok None.
Proof.
  intros Hextract. unfold analyze_news_impact, analyze_news_impact_with.
  rewrite Hextract. split; reflexivity.
Qed.

Lemma empty_content_is_absent_witness :
  extract_news_content
    (page 200 (py "<body><article></article><p>Body text</p></body>")
          empty_article_page)
    example_url 500
  = Ok (Some [])
  /\ analyze_news_impact
       (page 200 (py "<body><article></article><p>Body text</p></body>")
             empty_article_page)
       example_url (py "finance") 500
     = Ok None.
Proof.
  split; [reflexivity|].
  apply (proj1 (@empty_content_is_absent
                  (page 200
                     (py "<body><article></article><p>Body text</p></body>")
                     empty_article_page)
                  example_url (py "finance") 500 eq_refl)).
Defined.

(** ** [NewsImpactTool] *)

Section Tool.

Variable Any : Type.
Variable w : World.
Variables url field : str.
Variable kwargs : list (str * Any).

(** C7.  [_run] turns an absent analysis into the fixed message and
    returns a prompt unchanged. *)
Theorem run_translates_absent (r : option str) :
  analyze_news_impact w url field 500 = Ok r ->
  NewsImpactTool._run w url field kwargs
  = Ok match r with
       | None => py "Unable to extract or analyze the news article content."
       | Some prompt => prompt
       end.
Proof.
  intros H. unfold NewsImpactTool._run. rewrite H. simpl.
  destruct r; reflexivity.
Qed.

(** C10.  Awaiting [_arun] gives what [_run] gives on the same
    arguments. *)
Theorem arun_is_run :
  NewsImpactTool.await (NewsImpactTool._arun w url field kwargs)
  = NewsImpactTool._run w url field kwargs.
Proof. reflexivity. Qed.

End Tool.

Lemma run_translates_absent_witness :
  NewsImpactTool._run (unreachable (RequestException Timeout))
                      example_url (py "finance") (@nil (str * unit))
  = Ok (py "Unable to extract or analyze the news article content.").
Proof.
  apply (@run_translates_absent
           unit (unreachable (RequestException Timeout))
           example_url (py "finance") [] None).
  reflexivity.
Defined.

(** * Further properties of [web_scraper.py] *)

(** ** The word limit *)

Lemma first_candidate_existing (max_words : Z)
      (cs : list (option PageElement)) :
  first_candidate max_words cs
  = option_map (candidate_text max_words) (first_existing cs).
Proof.
  induction cs as [|[c|] cs IH]; simpl; [reflexivity | reflexivity | exact IH].
Qed.

(** [extract_news_content] is [page_words] cut at [max_words] and joined. *)
Lemma extract_page_words (w : World) (url : str) (max_words : Z) :
  extract_news_content w url max_words
  = match page_words w url with
    | Ok (Some ws) => Ok (Some (join (py " ") (slice_to max_words ws)))
    | Ok None => Ok None
    | Raise e => Raise e
    end.
Proof.
  unfold extract_news_content, page_words, raise_for_status.
  destruct (requests_get w url headers 10) as [response|e]; cbn [bind try_except option_map].
  - destruct ((400 <=? status_code response)
              && (status_code response <? 600))%Z; cbn [bind try_except option_map]; [reflexivity|].
    destruct (BeautifulSoup w (text response) (py "html.parser"))
      as [soup|e]; cbn [bind try_except option_map].
    + rewrite first_candidate_existing.
      destruct (first_existing (content_candidates soup)); cbn [bind try_except option_map];
        [rewrite candidate_text_words|]; reflexivity.
    + destruct (extract_catches e); reflexivity.
  - destruct (extract_catches e); reflexivity.
Qed.

Lemma page_words_are_words (w : World) (url : str) (ws : list str) :
  page_words w url = Ok (Some ws) -> forallb is_word ws = true.
Proof.
  unfold page_words, raise_for_status.
  destruct (requests_get w url headers 10) as [response|e]; cbn [bind try_except option_map].
  - destruct ((400 <=? status_code response)
              && (status_code response <? 600))%Z; cbn [bind try_except option_map];
      [intros H; discriminate H|].
    destruct (BeautifulSoup w (text response) (py "html.parser"))
      as [soup|e]; cbn [bind try_except option_map].
    + destruct (first_existing (content_candidates soup)); cbn [bind try_except option_map];
        intros H; [|discriminate H].
      injection H as <-. apply split_words.
    + destruct (extract_catches e); intros H; discriminate H.
  - destruct (extract_catches e); intros H; discriminate H.
Qed.

Lemma forallb_firstn (A : Type) (f : A -> bool) (n : nat) (l : list A) :
  forallb f l = true -> forallb f (firstn n l) = true.
Proof.
  revert n. induction l as [|a l IH]; intros [|n] H; simpl in *;
    try reflexivity.
  apply andb_true_iff in H. destruct H as [Ha Hl].
  rewrite Ha. simpl. apply IH. exact Hl.
Qed.

Lemma slice_to_words (stop : Z) (ws : list str) :
  forallb is_word ws = true -> forallb is_word (slice_to stop ws) = true.
Proof.
  intros H. unfold slice_to. destruct (stop <? 0)%Z; apply forallb_firstn, H.
Qed.

(** What a present result is made of. *)
Lemma extract_some_words (w : World) (url : str) (max_words : Z)
      (content : str) :
  extract_news_content w url max_words = Ok (Some content) ->
  exists ws,
    page_words w url = Ok (Some ws)
    /\ forallb is_word ws = true
    /\ content = join (py " ") (slice_to max_words ws)
    /\ split content = slice_to max_words ws.
Proof.
  rewrite extract_page_words.
  destruct (page_words w url) as [[ws|]|e] eqn:Hws; intros H;
    try discriminate H.
  injection H as <-. exists ws.
  pose proof (page_words_are_words _ _ Hws) as Hwords.
  repeat split; try assumption.
  apply split_join, slice_to_words, Hwords.
Qed.

(** X1.  With a limit that is not negative, a present result has at most
    [max_words] words. *)
Theorem extract_within_word_limit
        (w : World) (url : str) (max_words : Z) (content : str) :
  (0 <= max_words)%Z ->
  extract_news_content w url max_words = Ok (Some content) ->
  (Z.of_nat (length (split content)) <= max_words)%Z.
Proof.
  intros Hmax H.
  destruct (extract_some_words _ _ _ H) as (ws & _ & _ & _ & ->).
  unfold slice_to.
  destruct (max_words <? 0)%Z eqn:Hneg; [apply Z.ltb_lt in Hneg; lia|].
  pose proof (firstn_le_length (Z.to_nat max_words) ws).
  rewrite length_firstn. lia.
Qed.

Lemma extract_within_word_limit_witness :
  (Z.of_nat (length (split (py "one twothree"))) <= 2)%Z.
Proof.
  apply (@extract_within_word_limit
           (page 200 (py "<body><p>one two</p> <p> three four five</p></body>")
                 two_paragraph_page)
           example_url 2 (py "one twothree")).
  - lia.
  - reflexivity.
Defined.

(** X2.  A present result is in normal form: splitting it at white space
    and joining the words with single spaces gives it back, so it has no
    white space at either end and none but single spaces inside. *)
Theorem extract_is_normalised
        (w : World) (url : str) (max_words : Z) (content : str) :
  extract_news_content w url max_words = Ok (Some content) ->
  join (py " ") (split content) = content
  /\ forallb is_word (split content) = true.
Proof.
  intros H.
  destruct (extract_some_words _ _ _ H) as (ws & _ & Hwords & Hc & Hsplit).
  rewrite Hsplit. split; [symmetry; exact Hc|].
  apply slice_to_words, Hwords.
Qed.

Lemma extract_is_normalised_witness :
  join (py " ") (split (py "one twothree four five"))
  = py "one twothree four five"
  /\ forallb is_word (split (py "one twothree four five")) = true.
Proof.
  apply (@extract_is_normalised
           (page 200 (py "<body><p>one two</p> <p> three four five</p></body>")
                 two_paragraph_page)
           example_url 500 (py "one twothree four five")).
  reflexivity.
Defined.

(** X3.  Limits compose: the result for a smaller limit is the result for
    a larger one cut to the smaller number of words. *)
Theorem extract_smaller_limit_cuts_larger
        (w : World) (url : str) (m1 m2 : Z) (content2 : str) :
  (0 <= m1 <= m2)%Z ->
  extract_news_content w url m2 = Ok (Some content2) ->
  extract_news_content w url m1
  = Ok (Some (join (py " ") (firstn (Z.to_nat m1) (split content2)))).
Proof.
  intros Hm H.
  destruct (extract_some_words _ _ _ H) as (ws & Hws & _ & _ & ->).
  rewrite extract_page_words, Hws. unfold slice_to.
  destruct (m1 <? 0)%Z eqn:H1; [apply Z.ltb_lt in H1; lia|].
  destruct (m2 <? 0)%Z eqn:H2; [apply Z.ltb_lt in H2; lia|].
  rewrite firstn_firstn.
  replace (Nat.min (Z.to_nat m1) (Z.to_nat m2)) with (Z.to_nat m1) by lia.
  reflexivity.
Qed.

Lemma extract_smaller_limit_cuts_larger_witness :
  extract_news_content
    (page 200 (py "<body><p>one two</p> <p> three four five</p></body>")
          two_paragraph_page)
    example_url 1
  = Ok (Some (join (py " ")
                   (firstn (Z.to_nat 1) (split (py "one twothree four"))))).
Proof.
  apply (@extract_smaller_limit_cuts_larger
           (page 200 (py "<body><p>one two</p> <p> three four five</p></body>")
                 two_paragraph_page)
           example_url 1 3 (py "one twothree four")).
  - lia.
  - reflexivity.
Defined.

(** X4.  Once the limit exceeds the number of words of the result, a
    larger limit changes nothing. *)
Theorem extract_stable_above_word_count
        (w : World) (url : str) (m m' : Z) (content : str) :
  extract_news_content w url m = Ok (Some content) ->
  (Z.of_nat (length (split content)) < m)%Z ->
  (m <= m')%Z ->
  extract_news_content w url m' = Ok (Some content).
Proof.
  intros H Hlen Hm.
  destruct (extract_some_words _ _ _ H) as (ws & Hws & _ & Hc & Hsplit).
  rewrite extract_page_words, Hws. rewrite Hc. rewrite Hsplit in Hlen.
  unfold slice_to in *.
  destruct (m <? 0)%Z eqn:H1; [apply Z.ltb_lt in H1; lia|].
  destruct (m' <? 0)%Z eqn:H2; [apply Z.ltb_lt in H2; lia|].
  rewrite length_firstn in Hlen.
  rewrite !firstn_all2 by lia. reflexivity.
Qed.

Lemma extract_stable_above_word_count_witness :
  extract_news_content
    (page 200 (py "<body><p>one two</p> <p> three four five</p></body>")
          two_paragraph_page)
    example_url 500
  = Ok (Some (py "one twothree four five")).
Proof.
  apply (@extract_stable_above_word_count
           (page 200 (py "<body><p>one two</p> <p> three four five</p></body>")
                 two_paragraph_page)
           example_url 5 500 (py "one twothree four five")).
  - reflexivity.
  - vm_compute. reflexivity.
  - lia.
Defined.

(** X5.  A negative limit is not rejected: it drops that many words from
    the end.  [full] is the result under a limit that does not cut. *)
Theorem extract_negative_limit_drops_last_words
        (w : World) (url : str) (m big : Z) (full : str) :
  (m < 0)%Z ->
  extract_news_content w url big = Ok (Some full) ->
  (Z.of_nat (length (split full)) < big)%Z ->
  extract_news_content w url m
  = Ok (Some (join (py " ")
                   (firstn (length (split full) - Z.to_nat (- m))
                           (split full)))).
Proof.
  intros Hm H Hlen.
  destruct (extract_some_words _ _ _ H) as (ws & Hws & _ & _ & Hsplit).
  rewrite extract_page_words, Hws. rewrite Hsplit in *.
  unfold slice_to in *.
  destruct (big <? 0)%Z eqn:H1; [apply Z.ltb_lt in H1; lia|].
  apply Z.ltb_lt in Hm. rewrite Hm. apply Z.ltb_lt in Hm.
  rewrite length_firstn in Hlen.
  rewrite (firstn_all2 (n := Z.to_nat big)) by lia.
  do 4 f_equal. lia.
Qed.

Lemma extract_negative_limit_drops_last_words_witness :
  extract_news_content
    (page 200 (py "<body><p>one two</p> <p> three four five</p></body>")
          two_paragraph_page)
    example_url (-1)
  = Ok (Some (py "one twothree four")).
Proof.
  apply (@extract_negative_limit_drops_last_words
           (page 200 (py "<body><p>one two</p> <p> three four five</p></body>")
                 two_paragraph_page)
           example_url (-1) 500 (py "one twothree four five")).
  - lia.
  - reflexivity.
  - vm_compute. reflexivity.
Defined.

(** X6.  With [max_words = 0] no page ever yields a prompt: the cut
    leaves the empty string, which [analyze_news_impact] treats as
    absent. *)
Theorem zero_limit_never_builds_prompt
        (w : World) (url field : str) (prompt : str) :
  analyze_news_impact w url field 0 <> Ok (Some prompt).
Proof.
  intros H. apply analyze_news_impact_inv in H.
  destruct H as (content & Hextract & Hne & _).
  destruct (extract_some_words _ _ _ Hextract) as (ws & _ & _ & Hc & _).
  apply Hne. rewrite Hc. reflexivity.
Qed.

Lemma zero_limit_never_builds_prompt_witness :
  analyze_news_impact
    (page 200 (py "<body><p>Plain page</p></body>") plain_page)
    example_url (py "finance") 0
  <> Ok (Some (impact_prompt (py "Plain page") (py "finance"))).
Proof.
  apply (@zero_limit_never_builds_prompt
           (page 200 (py "<body><p>Plain page</p></body>") plain_page)
           example_url (py "finance")
           (impact_prompt (py "Plain page") (py "finance"))).
Defined.

(** ** Absent results and exceptions *)


Lemma Ok_inj (A : Type) (a b : A) : Ok a = Ok b -> a = b.
Proof. intros H. injection H as H. exact H. Qed.







Section ToolFailures.

Variable Any : Type.
Variable w : World.
Variables url field : str.
Variable kwargs : list (str * Any).


(** X9.  The fixed message is returned only for an absent analysis: no
    prompt is equal to it, so a caller can tell the two apart. *)
Theorem run_message_iff_absent :
  NewsImpactTool._run w url field kwargs
  = Ok (py "Unable to extract or analyze the news article content.")
  <-> analyze_news_impact w url field 500 = Ok None.
Proof.
  unfold NewsImpactTool._run.
  destruct (analyze_news_impact w url field 500) as [[p|]|e] eqn:Ha;
    cbn [bind].
  - split; intros H; [|discriminate H].
    apply analyze_news_impact_inv in Ha. destruct Ha as (c & _ & _ & ->).
    apply Ok_inj in H. discriminate H.
  - split; reflexivity.
  - split; intros H; discriminate H.
Qed.

End ToolFailures.


Lemma run_message_iff_absent_witness :
  analyze_news_impact (unreachable (RequestException Timeout))
                      example_url (py "finance") 500
  = Ok None.
Proof.
  apply (proj1 (@run_message_iff_absent
                  unit (unreachable (RequestException Timeout))
                  example_url (py "finance") [])).
  reflexivity.
Defined.

(** ** The content pattern *)

Lemma match_here_I_spec (p s : str) :
  match_here_I p s = true
  <-> exists m post, s = m ++ post /\ ci_equal p m.
Proof.
  unfold ci_equal. revert s. induction p as [|a p IH]; intros s; simpl.
  - split; [intros _|reflexivity]. exists [], s. split; [reflexivity|constructor].
  - destruct s as [|b s].
    + split; [intros H; discriminate H|].
      intros (m & post & Hs & Hm). inversion Hm; subst. discriminate Hs.
    + rewrite andb_true_iff, IH. split.
      * intros (Hab & m & post & -> & Hm).
        exists (b :: m), post. split; [reflexivity|constructor; assumption].
      * intros (m & post & Hs & Hm). inversion Hm; subst.
        injection Hs as <- ->. split; [assumption|]. eauto.
Qed.

(** [search] finds a literal of the alternation somewhere in the string. *)
Lemma search_I_spec (alts : list str) (s : str) :
  search_I alts s = true
  <-> exists p pre m post,
      In p alts /\ s = pre ++ m ++ post /\ ci_equal p m.
Proof.
  induction s as [|c s IH].
  - simpl. rewrite orb_false_r, existsb_exists. split.
    + intros (p & Hin & Hp). apply match_here_I_spec in Hp.
      destruct Hp as (m & post & Hs & Hm). exists p, [], m, post. auto.
    + intros (p & pre & m & post & Hin & Hs & Hm). exists p. split; [exact Hin|].
      apply match_here_I_spec.
      destruct pre; [|discriminate Hs]. exists m, post. auto.
  - cbn [search_I]. rewrite orb_true_iff, existsb_exists, IH. split.
    + intros [(p & Hin & Hp)|(p & pre & m & post & Hin & -> & Hm)].
      * apply match_here_I_spec in Hp. destruct Hp as (m & post & Hs & Hm).
        exists p, [], m, post. auto.
      * exists p, (c :: pre), m, post. auto.
    + intros (p & [|c' pre] & m & post & Hin & Hs & Hm).
      * left. exists p. split; [exact Hin|].
        apply match_here_I_spec. exists m, post. auto.
      * right. injection Hs as <- ->. exists p, pre, m, post. auto.
Qed.

(** X10.  The pattern is a search for one of two words: an attribute value
    matches exactly when it has, somewhere, the letters of [article] or of
    [content] in any case.  The third alternative, [main-content], adds
    nothing, and the words need not stand alone. *)
Theorem content_pattern_is_substring_search (value : str) :
  search_I content_re value = true
  <-> exists pre m post,
      value = pre ++ m ++ post
      /\ (ci_equal (py "article") m \/ ci_equal (py "content") m).
Proof.
  rewrite search_I_spec. unfold content_re. split.
  - intros (p & pre & m & post & Hin & -> & Hm).
    destruct Hin as [<-|[<-|[<-|[]]]].
    + exists pre, m, post. auto.
    + exists pre, m, post. auto.
    + change (py "main-content") with (py "main-" ++ py "content") in Hm.
      apply Forall2_app_inv_l in Hm.
      destruct Hm as (m1 & m2 & _ & Hm2 & ->).
      exists (pre ++ m1), m2, post. split; [|right; exact Hm2].
      rewrite <- !app_assoc. reflexivity.
  - intros (pre & m & post & -> & [Hm|Hm]).
    + exists (py "article"), pre, m, post. simpl. auto.
    + exists (py "content"), pre, m, post. simpl. auto.
Qed.

Lemma content_pattern_is_substring_search_witness :
  search_I content_re (py "Table-Of-CONTENTS") = true.
Proof.
  apply (proj2 (content_pattern_is_substring_search (py "Table-Of-CONTENTS"))).
  exists (py "Table-Of-"), (py "CONTENT"), (py "S").
  split; [reflexivity|]. right.
  repeat constructor.
Defined.

(** No letter of the pattern matches a space. *)
Lemma ci_equal_no_space (p m : str) :
  In p content_re -> ci_equal p m -> ~ In 32%N m /\ m <> [].
Proof.
  intros Hin Hm.
  assert (Hp : Forall (fun a => literal_I a 32%N = false) p /\ p <> []).
  { destruct Hin as [<-|[<-|[<-|[]]]];
      (split; [repeat constructor | discriminate]). }
  destruct Hp as (Hp & Hne). split.
  - clear Hne Hin. induction Hm as [|a b p m Hab _ IH]; [intros []|].
    inversion Hp; subst. intros [->|Hin32]; [congruence|].
    apply IH; assumption.
  - intros ->. inversion Hm; subst. apply Hne. reflexivity.
Qed.

(** A string without a space that occurs in [' '.join(parts)] occurs in
    one of the parts. *)
Lemma infix_of_join (parts : list str) (pre m post : str) :
  m <> [] -> ~ In 32%N m ->
  join (py " ") parts = pre ++ m ++ post ->
  exists part pre' post', In part parts /\ part = pre' ++ m ++ post'.
Proof.
  intros Hne Hm. revert pre.
  induction parts as [|v parts IH]; intros pre Hj.
  - simpl in Hj. destruct pre; [destruct m; [contradiction|]|]; discriminate Hj.
  - destruct parts as [|v' parts].
    + simpl in Hj. exists v, pre, post. split; [left; reflexivity|exact Hj].
    + change (join (py " ") (v :: v' :: parts))
        with (v ++ 32%N :: join (py " ") (v' :: parts)) in Hj.
      apply app_eq_app in Hj. destruct Hj as (l & [(Hv & Hr)|(Hpre & Hr)]).
      * symmetry in Hr. apply app_eq_app in Hr.
        destruct Hr as (l' & [(Hl & Hp)|(Hm' & Hs)]).
        -- exists v, pre, l'. split; [left; reflexivity|].
           rewrite Hv, Hl. reflexivity.
        -- destruct l' as [|c l'].
           ++ exists v, pre, []. split; [left; reflexivity|].
              rewrite Hv, Hm', !app_nil_r. reflexivity.
           ++ injection Hs as <- _. exfalso. apply Hm. rewrite Hm'.
              apply in_or_app. right. left. reflexivity.
      * destruct l as [|c l].
        -- simpl in Hr. destruct m as [|b m]; [contradiction|].
           injection Hr as <- _. exfalso. apply Hm. left. reflexivity.
        -- injection Hr as <- Hr.
           destruct (IH l Hr) as (part & pre' & post' & Hin & Hpart).
           exists part, pre', post'. split; [right; exact Hin|exact Hpart].
Qed.

(** X11.  For a list-valued attribute such as [class], the pattern is
    decided token by token: the value matches exactly when one of its
    tokens does, and the check of the tokens joined by spaces never adds
    a match. *)
Theorem class_match_is_per_token (tokens : list str) :
  attr_matches content_re (Some (AttrList tokens))
  = existsb (search_I content_re) tokens.
Proof.
  unfold attr_matches.
  destruct (existsb (search_I content_re) tokens) eqn:Hex; [reflexivity|].
  simpl. destruct (search_I content_re (join (py " ") tokens)) eqn:Hj;
    [|reflexivity].
  apply search_I_spec in Hj.
  destruct Hj as (p & pre & m & post & Hin & Hs & Hm).
  destruct (ci_equal_no_space Hin Hm) as (Hspace & Hne).
  destruct (infix_of_join _ _ _ Hne Hspace Hs)
    as (part & pre' & post' & Hpart & ->).
  rewrite <- Hex. symmetry. apply existsb_exists.
  exists (pre' ++ m ++ post'). split; [exact Hpart|].
  apply search_I_spec. exists p, pre', m, post'. auto.
Qed.

(** ** The prompt of the tool *)

(** X12.  Whatever the page, [_run] returns the fixed message or a prompt
    around a content that is not empty, is in normal form and has at most
    500 words. *)
Theorem run_prompt_within_500_words
        (Any : Type) (w : World) (url field : str)
        (kwargs : list (str * Any)) (out : str) :
  NewsImpactTool._run w url field kwargs = Ok out ->
  out = py "Unable to extract or analyze the news article content."
  \/ exists content,
      out = impact_prompt content field
      /\ content <> []
      /\ join (py " ") (split content) = content
      /\ (length (split content) <= 500)%nat.
Proof.
  unfold NewsImpactTool._run.
  destruct (analyze_news_impact w url field 500) as [[p|]|e] eqn:Ha;
    cbn [bind]; intros H; [| |discriminate H].
  - apply Ok_inj in H. subst out. right.
    apply analyze_news_impact_inv in Ha.
    destruct Ha as (content & Hextract & Hne & ->).
    destruct (extract_some_words _ _ _ Hextract)
      as (ws & _ & _ & Hc & Hsplit).
    exists content. repeat split; [exact Hne | |].
    + rewrite Hsplit. symmetry. exact Hc.
    + rewrite Hsplit. unfold slice_to.
      change (500 <? 0)%Z with false. cbv iota.
      rewrite length_firstn. lia.
  - apply Ok_inj in H. left. symmetry. exact H.
Qed.

Lemma run_prompt_within_500_words_witness :
  impact_prompt (py "Plain page") (py "finance")
  = py "Unable to extract or analyze the news article content."
  \/ exists content,
      impact_prompt (py "Plain page") (py "finance")
      = impact_prompt content (py "finance")
      /\ content <> []
      /\ join (py " ") (split content) = content
      /\ (length (split content) <= 500)%nat.
Proof.
  apply (@run_prompt_within_500_words
           unit (page 200 (py "<body><p>Plain page</p></body>") plain_page)
           example_url (py "finance") []).
  reflexivity.
Defined.

(** * Properties of the news-impact endpoint *)

Section Endpoint.

Variable w : World.
Variable s : Chatbot.Service.
Variable news_request : Chatbot.NewsImpactRequest.

Lemma first_try_never_falls :
  Chatbot.first_try s news_request <> Chatbot.Falls.
Proof.
  unfold Chatbot.first_try.
  destruct (Chatbot.first_try_body s news_request) as [r|e];
    [|destruct (is_Exception e)]; discriminate.
Qed.

(** X13.  The second [try] of the endpoint is never reached: the first
    one returns or raises on every path.  So the endpoint never calls
    [analyze_news_impact], the page behind the URL is never fetched, and
    the answer is the same in every state of the scraped site. *)
Theorem endpoint_never_scrapes :
  Chatbot.analyze_news_impact_endpoint w s news_request
  = Chatbot.first_try s news_request
  /\ forall w' : World,
      Chatbot.analyze_news_impact_endpoint w' s news_request
      = Chatbot.analyze_news_impact_endpoint w s news_request.
Proof.
  assert (H : forall w0,
             Chatbot.analyze_news_impact_endpoint w0 s news_request
             = Chatbot.first_try s news_request).
  { intros w0. unfold Chatbot.analyze_news_impact_endpoint, Chatbot.seq.
    pose proof first_try_never_falls as Hfalls.
    destruct (Chatbot.first_try s news_request);
      [contradiction | reflexivity | reflexivity]. }
  split; [apply H|]. intros w'. rewrite !H. reflexivity.
Qed.

(** X14.  Every failure of the endpoint comes from the first [try].  An
    [Exception] raised there becomes an [HTTPException] with status 500
    whose detail is the fixed prefix followed by the text of the
    exception; what is not an [Exception] ([KeyboardInterrupt],
    [SystemExit], ...) passes unchanged.  The status 400 of the
    unreachable part is never raised. *)
Theorem endpoint_failures_are_500 (e : Chatbot.raised) :
  Chatbot.analyze_news_impact_endpoint w s news_request = Chatbot.Throws e ->
  (exists cause,
      Chatbot.first_try_body s news_request = Raise cause
      /\ ((is_Exception cause = true
           /\ e = Chatbot.HTTPException
                    500 (py "Failed to analyze news impact: "
                         ++ Chatbot.exception_str s cause))
          \/ (is_Exception cause = false
              /\ e = Chatbot.PythonException cause)))
  /\ forall detail, e <> Chatbot.HTTPException 400 detail.
Proof.
  unfold Chatbot.analyze_news_impact_endpoint, Chatbot.seq,
    Chatbot.first_try.
  destruct (Chatbot.first_try_body s news_request) as [r|cause];
    intros H; [discriminate H|].
  destruct (is_Exception cause) eqn:Hclass; injection H as <-.
  - split; [|intros detail H; discriminate H].
    exists cause. split; [reflexivity|]. left.
    split; [exact Hclass|reflexivity].
  - split; [|intros detail H; discriminate H].
    exists cause. split; [reflexivity|]. right.
    split; [exact Hclass|reflexivity].
Qed.

(** X16.  The endpoint answers exactly when the post went through with a
    status outside 400..599, the body decoded, the content was found
    under [choices][0][message][content], and the response schema
    accepted it; the answer carries that content. *)
Theorem endpoint_returns_iff (r : Chatbot.NewsImpactResponse) :
  Chatbot.analyze_news_impact_endpoint w s news_request = Chatbot.Returns r
  <-> exists response data value,
      Chatbot.requests_post
        s Chatbot.ollama_url
        (Chatbot.payload (Chatbot.endpoint_prompt news_request)) 60
      = Ok response
      /\ raise_for_status response = Ok tt
      /\ Chatbot.response_json s response = Ok data
      /\ Chatbot.llm_content data = Ok value
      /\ Chatbot.validate_content s value = Ok (Chatbot.content r).
Proof.
  unfold Chatbot.analyze_news_impact_endpoint, Chatbot.seq,
    Chatbot.first_try, Chatbot.first_try_body,
    Chatbot.new_NewsImpactResponse.
  destruct (Chatbot.requests_post
              s Chatbot.ollama_url
              (Chatbot.payload (Chatbot.endpoint_prompt news_request)) 60)
    as [response|e]; cbn [bind].
  2: { split; [destruct (is_Exception e); intros H; discriminate H|].
       intros (r0 & d & v & H & _). discriminate H. }
  destruct (raise_for_status response) as [[]|e] eqn:Hstatus; cbn [bind].
  2: { split; [destruct (is_Exception e); intros H; discriminate H|].
       intros (r0 & d & v & H & H' & _). injection H as <-.
       rewrite Hstatus in H'. discriminate H'. }
  destruct (Chatbot.response_json s response) as [data|e] eqn:Hjson;
    cbn [bind].
  2: { split; [destruct (is_Exception e); intros H; discriminate H|].
       intros (r0 & d & v & H & _ & H' & _). injection H as <-.
       rewrite Hjson in H'. discriminate H'. }
  destruct (Chatbot.llm_content data) as [value|e] eqn:Hcontent; cbn [bind].
  2: { split; [destruct (is_Exception e); intros H; discriminate H|].
       intros (r0 & d & v & H & _ & H' & H'' & _). injection H as <-.
       rewrite Hjson in H'. injection H' as <-.
       rewrite Hcontent in H''. discriminate H''. }
  destruct (Chatbot.validate_content s value) as [c|e] eqn:Hvalid;
    cbn [bind].
  - split.
    + intros H. injection H as <-. exists response, data, value.
      repeat split; assumption.
    + intros (r0 & d & v & H & _ & H' & H'' & H3). injection H as <-.
      rewrite Hjson in H'. injection H' as <-.
      rewrite Hcontent in H''. injection H'' as <-.
      rewrite Hvalid in H3. injection H3 as ->. destruct r. reflexivity.
  - split; [destruct (is_Exception e); intros H; discriminate H|].
    intros (r0 & d & v & H & _ & H' & H'' & H3). injection H as <-.
    rewrite Hjson in H'. injection H' as <-.
    rewrite Hcontent in H''. injection H'' as <-.
    rewrite Hvalid in H3. discriminate H3.
Qed.

End Endpoint.

Lemma endpoint_failures_are_500_witness :
  (exists cause,
      Chatbot.first_try_body
        (sample_service 200 no_choices_json (py "list index out of range"))
        sample_request
      = Raise cause
      /\ ((is_Exception cause = true
           /\ Chatbot.HTTPException
                500 (py "Failed to analyze news impact: list index out of range")
              = Chatbot.HTTPException
                  500 (py "Failed to analyze news impact: "
                       ++ Chatbot.exception_str
                            (sample_service
                               200 no_choices_json
                               (py "list index out of range"))
                            cause))
          \/ (is_Exception cause = false
              /\ Chatbot.HTTPException
                   500 (py "Failed to analyze news impact: list index out of range")
                 = Chatbot.PythonException cause)))
  /\ forall detail,
      Chatbot.HTTPException
        500 (py "Failed to analyze news impact: list index out of range")
      <> Chatbot.HTTPException 400 detail.
Proof.
  apply (@endpoint_failures_are_500
           (unreachable (RequestException Timeout))
           (sample_service 200 no_choices_json
                           (py "list index out of range"))
           sample_request).
  reflexivity.
Defined.

Lemma endpoint_returns_iff_witness :
  Chatbot.analyze_news_impact_endpoint
    (unreachable (RequestException Timeout))
    (sample_service 200 completion_json []) sample_request
  = Chatbot.Returns (Chatbot.mkNewsImpactResponse (py "Rates may rise.")).
Proof.
  apply (proj2 (@endpoint_returns_iff
                  (unreachable (RequestException Timeout))
                  (sample_service 200 completion_json []) sample_request
                  (Chatbot.mkNewsImpactResponse (py "Rates may rise.")))).
  exists (mkResponse 200 (py "{}")), completion_json,
         (JString (py "Rates may rise.")).
  repeat split.
Defined.

(** ** Reading the completion *)

Lemma getitem_key_ok (value : json) (key : str) (x : json) :
  getitem value (Key key) = Ok x
  <-> exists members,
      value = JObject members /\ json_member key members = Some x.
Proof.
  split.
  - destruct value as [| | | | |members]; simpl; intros H;
      try discriminate H.
    destruct (json_member key members) as [v|] eqn:Hm; [|discriminate H].
    injection H as <-. exists members. split; [reflexivity|exact Hm].
  - intros (members & -> & Hm). simpl. rewrite Hm. reflexivity.
Qed.

Lemma sequence_item_first (A : Type) (l : list A) (x : A) :
  sequence_item l 0 = Ok x <-> exists rest, l = x :: rest.
Proof.
  unfold sequence_item. destruct l as [|a rest]; simpl.
  - split; [intros H; discriminate H | intros (r & H); discriminate H].
  - split.
    + intros H. injection H as <-. exists rest. reflexivity.
    + intros (r & H). injection H as <- _. reflexivity.
Qed.

Lemma getitem_first_ok (value x : json) :
  getitem value (Index 0) = Ok x
  <-> (exists rest, value = JArray (x :: rest))
      \/ (exists c rest, value = JString (c :: rest) /\ x = JString [c]).
Proof.
  split.
  - destruct value as [| | |s|items|members]; cbn [getitem]; intros H;
      try discriminate H.
    + destruct (sequence_item s 0) as [c|e] eqn:Hc; [|discriminate H].
      cbn [bind] in H. injection H as <-.
      apply sequence_item_first in Hc. destruct Hc as (rest & ->).
      right. exists c, rest. split; reflexivity.
    + apply sequence_item_first in H. destruct H as (rest & ->).
      left. exists rest. reflexivity.
  - intros [(rest & ->)|(c & rest & -> & ->)]; reflexivity.
Qed.

(** X15.  [data["choices"][0]["message"]["content"]] yields a value
    exactly when [data] is an object whose [choices] is a list that is
    not empty, whose first item is an object with an object [message]
    that has a member [content]; a missing key, an empty list or a value
    of another shape raises. *)
Theorem llm_content_ok_iff (data value : json) :
  Chatbot.llm_content data = Ok value
  <-> exists members first_members rest message_members,
      data = JObject members
      /\ json_member (py "choices") members
         = Some (JArray (JObject first_members :: rest))
      /\ json_member (py "message") first_members
         = Some (JObject message_members)
      /\ json_member (py "content") message_members = Some value.
Proof.
  unfold Chatbot.llm_content. split.
  - destruct (getitem data (Key (py "choices"))) as [choices|e] eqn:H1;
      cbn [bind]; [|intros H; discriminate H].
    destruct (getitem choices (Index 0)) as [first|e] eqn:H2;
      cbn [bind]; [|intros H; discriminate H].
    destruct (getitem first (Key (py "message"))) as [message|e] eqn:H3;
      cbn [bind]; [|intros H; discriminate H].
    intros H4.
    apply getitem_key_ok in H1. destruct H1 as (members & -> & H1).
    apply getitem_key_ok in H3. destruct H3 as (first_members & -> & H3).
    apply getitem_key_ok in H4. destruct H4 as (message_members & -> & H4).
    apply getitem_first_ok in H2.
    destruct H2 as [(rest & ->)|(c & rest & _ & H2)]; [|discriminate H2].
    exists members, first_members, rest, message_members.
    repeat split; assumption.
  - intros (members & first_members & rest & message_members
            & -> & H1 & H3 & H4).
    assert (E1 : getitem (JObject members) (Key (py "choices"))
                 = Ok (JArray (JObject first_members :: rest)))
      by (apply getitem_key_ok; eauto).
    assert (E2 : getitem (JArray (JObject first_members :: rest)) (Index 0)
                 = Ok (JObject first_members))
      by (apply getitem_first_ok; left; eauto).
    assert (E3 : getitem (JObject first_members) (Key (py "message"))
                 = Ok (JObject message_members))
      by (apply getitem_key_ok; eauto).
    rewrite E1. cbn [bind]. rewrite E2. cbn [bind]. rewrite E3. cbn [bind].
    apply getitem_key_ok. eauto.
Qed.

Lemma llm_content_ok_iff_witness :
  Chatbot.llm_content completion_json = Ok (JString (py "Rates may rise.")).
Proof.
  apply (proj2 (llm_content_ok_iff completion_json
                                   (JString (py "Rates may rise.")))).
  exists [(py "choices",
           JArray
             [JObject
                [(py "message",
                  JObject [(py "role", JString (py "assistant"));
                           (py "content",
                            JString (py "Rates may rise."))])]])],
         [(py "message",
           JObject [(py "role", JString (py "assistant"));
                    (py "content", JString (py "Rates may rise."))])],
         [],
         [(py "role", JString (py "assistant"));
          (py "content", JString (py "Rates may rise."))].
  repeat split.
Defined.
